(** * mojo-unnet: the [%%mojo] notebook cell magic (src/utils/notebook.py)

    A shallow embedding of the module [utils/notebook.py] and a
    verification of its observable behaviour: what the handler [mojo]
    writes to the notebook, what it raises, which files it leaves behind
    and how it calls its collaborator [subprocess_run_mojo].

    Python values are modelled as follows.
    - [str] is a sequence of Unicode code points ([list N]);
    - [bytes] is a sequence of octets ([list byte]);
    - [int] is [Z];
    - a [pathlib.Path] below the file-system root is the list of its
      components;
    - the file system is a finite map from paths to nodes;
    - statements run in a state-and-exception monad over a [World]
      (files, notebook output, log of collaborator calls);
    - a text file holds text; writing it goes through the platform's
      text encoding, which may reject the text. *)

From Stdlib Require Import ZArith NArith Strings.Byte String Ascii Lia.
From stdpp Require Import base option list gmap fin_maps.

Local Open Scope N_scope.

(** ** Python text and bytes *)

Abbreviation str := (list N).
Abbreviation bytes := (list byte).

(** An ASCII literal of the source as a [str] (one code point per
    character). *)
Definition py (s : string) : str :=
  List.map Byte.to_N (list_byte_of_string s).

(** An ASCII literal of the source as [bytes]. *)
Definition pyb (s : string) : bytes := list_byte_of_string s.

(** Truth value of a [str]: the empty string is falsy. *)
Definition truthy (s : str) : bool :=
  match s with
  | [] => false
  | _ :: _ => true
  end.

(** [str.isspace] on one code point: the code points whose bidirectional
    class is WS, B or S, or whose general category is Zs. *)
Definition isspace (c : N) : bool :=
  ((9 <=? c) && (c <=? 13)) || ((28 <=? c) && (c <=? 32))
  || (c =? 133) || (c =? 160) || (c =? 5760)
  || ((8192 <=? c) && (c <=? 8202))
  || (c =? 8232) || (c =? 8233) || (c =? 8239) || (c =? 8287)
  || (c =? 12288).

(** [str.lstrip()], [str.rstrip()] and [str.strip()] without argument. *)
Fixpoint lstrip (s : str) : str :=
  match s with
  | [] => []
  | c :: s' => if isspace c then lstrip s' else s
  end.

Definition rstrip (s : str) : str := reverse (lstrip (reverse s)).

Definition strip (s : str) : str := rstrip (lstrip s).

(** ** [bytes.decode()]: strict UTF-8

    The default codec of [bytes.decode] is UTF-8 with [errors="strict"]:
    over-long forms, surrogates, code points above U+10FFFF, stray
    continuation bytes and truncated sequences are rejected. *)

Definition is_continuation (b : N) : bool := (128 <=? b) && (b <? 192).

Fixpoint utf8_decode (bs : bytes) : option str :=
  match bs with
  | [] => Some []
  | b1 :: rest =>
    let ch := Byte.to_N b1 in
    if ch <? 128 then
      cons ch <$> utf8_decode rest
    else if ch <? 224 then
      (* C2 80 .. DF BF: U+0080 .. U+07FF *)
      if ch <? 194 then None
      else
        match rest with
        | b2 :: rest =>
          let ch2 := Byte.to_N b2 in
          if is_continuation ch2 then
            cons (N.shiftl ch 6 + ch2 - (N.shiftl 192 6 + 128))
              <$> utf8_decode rest
          else None
        | _ => None
        end
    else if ch <? 240 then
      (* E0 A0 80 .. EF BF BF: U+0800 .. U+FFFF, surrogates excluded *)
      match rest with
      | b2 :: b3 :: rest =>
        let ch2 := Byte.to_N b2 in
        let ch3 := Byte.to_N b3 in
        if negb (is_continuation ch2)
           || (if ch2 <? 160 then ch =? 224 else ch =? 237)
        then None
        else if is_continuation ch3 then
          cons (N.shiftl ch 12 + N.shiftl ch2 6 + ch3
                - (N.shiftl 224 12 + N.shiftl 128 6 + 128))
            <$> utf8_decode rest
        else None
      | _ => None
      end
    else if ch <? 245 then
      (* F0 90 80 80 .. F4 8F BF BF: U+10000 .. U+10FFFF *)
      match rest with
      | b2 :: b3 :: b4 :: rest =>
        let ch2 := Byte.to_N b2 in
        let ch3 := Byte.to_N b3 in
        let ch4 := Byte.to_N b4 in
        if negb (is_continuation ch2)
           || (if ch2 <? 144 then ch =? 240 else ch =? 244)
        then None
        else if is_continuation ch3 && is_continuation ch4 then
          cons (N.shiftl ch 18 + N.shiftl ch2 12 + N.shiftl ch3 6 + ch4
                - (N.shiftl 240 18 + N.shiftl 128 12 + N.shiftl 128 6 + 128))
            <$> utf8_decode rest
        else None
      | _ => None
      end
    else None
  end.

(** ** [str.encode()]: UTF-8

    What a process that prints a text puts on its standard output.
    Surrogates cannot be encoded. *)

Definition byte_of (n : N) : byte := default x00 (Byte.of_N n).

Definition utf8_encode_char (c : N) : option bytes :=
  if c <? 128 then Some [byte_of c]
  else if c <? 2048 then
    Some [byte_of (192 + c / 64); byte_of (128 + c mod 64)]
  else if c <? 65536 then
    if (55296 <=? c) && (c <? 57344) then None
    else Some [byte_of (224 + c / 4096); byte_of (128 + c / 64 mod 64);
               byte_of (128 + c mod 64)]
  else if c <? 1114112 then
    Some [byte_of (240 + c / 262144); byte_of (128 + c / 4096 mod 64);
          byte_of (128 + c / 64 mod 64); byte_of (128 + c mod 64)]
  else None.

Fixpoint utf8_encode (s : str) : option bytes :=
  match s with
  | [] => Some []
  | c :: s' =>
    match utf8_encode_char c, utf8_encode s' with
    | Some b, Some bs => Some (b ++ bs)
    | _, _ => None
    end
  end.

(** ** Paths and the file system *)

Abbreviation Path := (list str).

(** [p / name] for a single component [name]. *)
Definition path_join (p : Path) (name : str) : Path := p ++ [name].
Infix "//" := path_join (at level 40, left associativity).

(** [str(p)] on a POSIX system: components separated by slash, below the
    root. *)
Definition str_of_path (p : Path) : str :=
  concat (List.map (fun c => py "/" ++ c) p).

(** [p.parent]. *)
Definition parent (p : Path) : Path := removelast p.

Inductive node : Type :=
| Dir
| File (content : str).

Abbreviation FS := (gmap Path node).

(** [shutil.rmtree(d)]: the directory and everything below it go. *)
Definition rmtree (d : Path) (fs : FS) : FS :=
  filter (fun kv => ¬ d `prefix_of` kv.1) fs.

(** ** Collaborators

    [utils.run.subprocess_run_mojo] returns the completed process (return
    code and the two captured streams); [utils.paths.MojoCompilationError]
    carries the source path, the command and both streams as text. *)

Record CompletedProcess : Type := {
  returncode : Z;
  stdout : bytes;
  stderr : bytes
}.

Inductive Exception : Type :=
| MojoCompilationError (path : Path) (command : list str) (out err : str)
| UnicodeDecodeError (object : bytes)
| UnicodeEncodeError (object : str)
| OSError (what : str).

(** ** The world and the monad of statements *)

Record Invocation : Type := {
  inv_command : list str;
  inv_capture_output : bool;
  inv_files : FS
}.

Record World : Type := {
  files : FS;
  notebook : str;
  spawned : list Invocation
}.

Definition set_files (f : FS -> FS) (w : World) : World :=
  {| files := f (files w); notebook := notebook w; spawned := spawned w |}.

Inductive Result (A : Type) : Type :=
| Return (a : A)
| Raise (e : Exception).
Arguments Return {A} a.
Arguments Raise {A} e.

Definition M (A : Type) : Type := World -> Result A * World.

#[global] Instance M_ret : MRet M := fun A a w => (Return a, w).

#[global] Instance M_bind : MBind M := fun A B k m w =>
  match m w with
  | (Return a, w') => k a w'
  | (Raise e, w') => (Raise e, w')
  end.

Definition raise {A : Type} (e : Exception) : M A := fun w => (Raise e, w).

(** [open(p, "w")]: the file is created, or truncated if it is there. *)
Definition open_w_fs (p : Path) (fs : FS) : FS := <[p := File []]> fs.

Definition open_w (p : Path) : M unit := fun w =>
  (Return tt, set_files (open_w_fs p) w).

(** The files after a successful [f.write(text)] on the file opened at
    [p] and the close of the [with] block: the file holds [text]. *)
Definition write_text_fs (p : Path) (text : str) (fs : FS) : FS :=
  <[p := File text]> fs.

(** [Path.touch()]: an existing node keeps its content, a missing file is
    created empty. *)
Definition touch_fs (p : Path) (fs : FS) : FS :=
  match fs !! p with
  | Some _ => fs
  | None => <[p := File []]> fs
  end.

Definition touch (p : Path) : M unit := fun w =>
  (Return tt, set_files (touch_fs p) w).

(** [bytes.decode()]. *)
Definition decode (bs : bytes) : M str :=
  match utf8_decode bs with
  | Some s => mret s
  | None => raise (UnicodeDecodeError bs)
  end.

(** [print(s, end=e)] into the notebook. *)
Definition print (s e : str) : M unit := fun w =>
  (Return tt,
   {| files := files w; notebook := notebook w ++ s ++ e;
      spawned := spawned w |}).

(** ** The module [utils.notebook] *)

(** What the module takes from outside: the name [tempfile.mkdtemp] picks
    in a given file system; the strict text encoding [open] gives a text
    file on this platform ([locale.getencoding()]), which answers [None]
    for a text it cannot encode; and the collaborator
    [subprocess_run_mojo(command, capture_output=...)], which sees the
    files, may change them, and either fails to start the process or
    returns the completed process. *)
Class Collaborators : Type := {
  mkdtemp : FS -> Path;
  encode_text : str -> option bytes;
  subprocess_run_mojo :
    list str -> bool -> FS -> (str + CompletedProcess) * FS
}.

Section Notebook.

Context `{Collaborators}.

(** [with tempfile.TemporaryDirectory() as tempdir: body]: a new
    directory is made, and removed with its content when the block is
    left, whether [body] returns or raises. *)
Definition with_TemporaryDirectory {A : Type} (body : Path -> M A) : M A :=
  fun w =>
    let tempdir := mkdtemp (files w) in
    let '(r, w') := body tempdir (set_files (insert tempdir Dir) w) in
    (r, set_files (rmtree tempdir) w').

(** [f.write(text)] on the file opened at [p], and the close of the
    [with] block: the text is encoded as a whole, so a text the encoding
    rejects raises [UnicodeEncodeError] and the file stays as [open] left
    it; otherwise the file holds the text. *)
Definition write (p : Path) (text : str) : M unit := fun w =>
  match encode_text text with
  | Some _ => (Return tt, set_files (write_text_fs p text) w)
  | None => (Raise (UnicodeEncodeError text), w)
  end.

(** The call [subprocess_run_mojo(command, capture_output=c)]. *)
Definition run (command : list str) (c : bool) : M CompletedProcess :=
  fun w =>
    let '(r, fs') := subprocess_run_mojo command c (files w) in
    let w' := {| files := fs'; notebook := notebook w;
                 spawned := spawned w ++
                   [{| inv_command := command; inv_capture_output := c;
                       inv_files := files w |}] |} in
    match r with
    | inl what => (Raise (OSError what), w')
    | inr result => (Return result, w')
    end.

(** The cell magic, lines 34-91. *)
Definition mojo (line cell : str) : M unit :=
  with_TemporaryDirectory (fun tempdir =>
    let path := tempdir in
    let mojo_path := path // py "cell.mojo" in
    open_w mojo_path ;;
    write mojo_path cell ;;
    touch (path // py "__init__.mojo") ;;
    let command := [py "run"; str_of_path mojo_path] in
    result ← run command true ;
    if (returncode result =? 0)%Z then
      stdout ← decode (stdout result) ;
      if truthy (strip stdout) then print stdout [] else mret tt
    else
      out ← decode (stdout result) ;
      err ← decode (stderr result) ;
      raise (MojoCompilationError mojo_path command out err)).

(** Lines 18-26: the import of the notebook package and its fallback.
    [imported] is what [from IPython... import ...] found, if the package
    is installed: its decorator and its [display]. *)
Record IPython (H : Type) : Type := {
  ip_register_cell_magic : H -> H;
  ip_display : str -> M unit
}.
Arguments ip_register_cell_magic {H} _ _.
Arguments ip_display {H} _ _.

Definition register_cell_magic {H : Type} (imported : option (IPython H))
  : H -> H :=
  match imported with
  | Some ip => ip_register_cell_magic ip
  | None => fun fn => fn
  end.

Definition display {H : Type} (imported : option (IPython H))
  : option (str -> M unit) :=
  match imported with
  | Some ip => Some (ip_display ip)
  | None => None
  end.

(** Line 33: the module's name [mojo] after decoration. *)
Definition mojo_magic (imported : option (IPython (str -> str -> M unit)))
  : str -> str -> M unit :=
  register_cell_magic imported mojo.

(** *** Vocabulary for the statements below

    The directory, the generated source file and the command of a call of
    [mojo] in world [w]; the files as staged for the external process; and
    how the call of the external process turns out. *)
Definition tempdir (w : World) : Path := mkdtemp (files w).

Definition mojo_path (w : World) : Path := tempdir w // py "cell.mojo".

Definition init_path (w : World) : Path := tempdir w // py "__init__.mojo".

Definition command (w : World) : list str :=
  [py "run"; str_of_path (mojo_path w)].

Definition staged (cell : str) (w : World) : FS :=
  touch_fs (init_path w)
    (write_text_fs (mojo_path w) cell (<[tempdir w := Dir]> (files w))).

(** The invocation the handler makes, as it is logged. *)
Definition invocation (cell : str) (w : World) : Invocation :=
  {| inv_command := command w; inv_capture_output := true;
     inv_files := staged cell w |}.

(** How the invocation of the external process turns out, and the files
    at that point: the completed process the collaborator returns; or the
    exception that ends the handler without one, raised by the
    collaborator or, before the collaborator is called, by the write of a
    cell that cannot be encoded. *)
Definition outcome (cell : str) (w : World)
  : (Exception + CompletedProcess) * FS :=
  match encode_text cell with
  | None =>
    (inl (UnicodeEncodeError cell),
     open_w_fs (mojo_path w) (<[tempdir w := Dir]> (files w)))
  | Some _ =>
    match subprocess_run_mojo (command w) true (staged cell w) with
    | (inl what, fs') => (inl (OSError what), fs')
    | (inr result, fs') => (inr result, fs')
    end
  end.

(** The log after a call of [mojo]: the invocation is on it if the cell
    could be written. *)
Definition final_log (cell : str) (w : World) : list Invocation :=
  match encode_text cell with
  | Some _ => spawned w ++ [invocation cell w]
  | None => spawned w
  end.

(** The world a call of [mojo] ends in when the notebook then shows
    [nb]: the temporary directory is gone from the files as they were
    when the block was left. *)
Definition final (cell : str) (w : World) (nb : str) : World :=
  {| files := rmtree (tempdir w) (outcome cell w).2;
     notebook := nb;
     spawned := final_log cell w |}.

End Notebook.

(** ** A test bench

    A fixed temporary name, UTF-8 as the encoding of text files, a
    collaborator that answers with a given completed process (or fails to
    start it) and leaves the files alone, and an empty world. *)
Definition bench_tmp : Path := [py "tmp"; py "tmpq7x2m9ab"].

Definition bench (answer : str + CompletedProcess) : Collaborators := {|
  mkdtemp := fun _ => bench_tmp;
  encode_text := utf8_encode;
  subprocess_run_mojo := fun _ _ fs => (answer, fs)
|}.

Definition completed {E : Type} (rc : Z) (out err : bytes)
  : E + CompletedProcess :=
  inr {| returncode := rc; stdout := out; stderr := err |}.

Definition w0 : World := {| files := ∅; notebook := []; spawned := [] |}.

Definition hello_cell : str := py "fn main():
    print('Hello from Mojo!')
".

(** The process prints a greeting and a newline and exits with 0. *)
Definition hello_run : Collaborators :=
  bench (completed 0 (pyb "Hello from Mojo!" ++ [x0a]) []).

(** The process prints two blanks and a newline and exits with 0. *)
Definition blank_run : Collaborators :=
  bench (completed 0 (pyb "  " ++ [x0a]) []).

(** The process prints a single newline and exits with 0. *)
Definition newline_run : Collaborators :=
  bench (completed 0 [x0a] []).

(** The compiler reports an error on standard error and exits with 1. *)
Definition failed_run : Collaborators :=
  bench (completed 1 (pyb "checking")
           (pyb "error: use of unknown declaration")).

(** The process exits with 1 and its standard error is the single byte
    FF, which is not UTF-8. *)
Definition garbled_stderr_run : Collaborators :=
  bench (completed 1 [] [xff]).

(** The process exits with 0 and its standard output is the single byte
    FF. *)
Definition garbled_stdout_run : Collaborators :=
  bench (completed 0 [xff] []).

(** The executable cannot be started. *)
Definition missing_run : Collaborators :=
  bench (inl (py "mojo: not found")).

(** The greeting run again, with bytes that are not UTF-8 on standard
    error. *)
Definition noisy_hello_run : Collaborators :=
  bench (completed 0 (pyb "Hello from Mojo!" ++ [x0a]) [xff; xfe]).

(** The process prints a text outside ASCII (pi, almost equal, 3) and
    exits with 0. *)
Definition pi_text : str := [960; 32; 8776; 32; 51].

Definition pi_run : Collaborators :=
  bench (completed 0 [xcf; x80; x20; xe2; x89; x88; x20; x33] []).

(** The process leaves an object file beside the source file and exits
    with 0. *)
Definition artifact_run : Collaborators := {|
  mkdtemp := fun _ => bench_tmp;
  encode_text := utf8_encode;
  subprocess_run_mojo := fun _ _ fs =>
    (completed 0 [] [],
     <[bench_tmp // py "cell.o" := File (py "object code")]> fs)
|}.

(** A cell that is a lone surrogate, as in the literal ['\ud800']. *)
Definition surrogate_cell : str := [55296].

(** The process exits with 1 and neither stream is UTF-8. *)
Definition garbled_failed_run : Collaborators :=
  bench (completed 1 [xc0; x80] [xff]).

(** A world with a file of the user's and earlier output in the
    notebook. *)
Definition notes_path : Path := [py "home"; py "user"; py "notes.txt"].

Definition w_notes : World := {|
  files := {[ notes_path := File (py "remember the milk") ]};
  notebook := py "In [1]: ";
  spawned := []
|}.

(** A string that is empty or holds white space only. *)
Definition whitespace_only (s : str) : Prop :=
  Forall (fun c => isspace c = true) s.

(** A result that is a raised [MojoCompilationError]. *)
Definition raises_compilation_error (r : Result unit) : Prop :=
  exists path cmd out err, r = Raise (MojoCompilationError path cmd out err).

(** A directory name under which the file system holds nothing yet. *)
Definition new_directory (d : Path) (fs : FS) : Prop :=
  forall q, fs !! (d ++ q) = None.

(** * Properties *)

(** ** Stripping *)

Lemma lstrip_head (s : str) c t : lstrip s = c :: t -> isspace c = false.
Proof.
  induction s as [|a s IH]; simpl; [discriminate|].
  destruct (isspace a) eqn:Ha; [exact IH|].
  intros [= <- _]. exact Ha.
Qed.

Lemma lstrip_nil_iff (s : str) : lstrip s = [] <-> whitespace_only s.
Proof.
  unfold whitespace_only. induction s as [|a s IH]; simpl.
  - split; [constructor|reflexivity].
  - destruct (isspace a) eqn:Ha.
    + rewrite IH. split; [by constructor|by inversion 1].
    + split; [discriminate|]. inversion 1; congruence.
Qed.

Lemma whitespace_only_reverse (s : str) :
  whitespace_only (reverse s) <-> whitespace_only s.
Proof.
  unfold whitespace_only. rewrite !Forall_forall.
  split; intros Hs c Hc; apply Hs.
  - by apply elem_of_reverse_2.
  - by rewrite elem_of_reverse in Hc.
Qed.

Lemma strip_nil_iff (s : str) : strip s = [] <-> whitespace_only s.
Proof.
  unfold strip, rstrip. split.
  - intros Hs. apply (f_equal reverse) in Hs.
    rewrite reverse_involutive in Hs. change (reverse []) with (@nil N) in Hs.
    apply (proj1 (lstrip_nil_iff _)) in Hs.
    apply (proj1 (whitespace_only_reverse _)) in Hs.
    apply lstrip_nil_iff. destruct (lstrip s) as [|c t] eqn:Hl; [done|].
    apply lstrip_head in Hl. unfold whitespace_only in Hs.
    inversion Hs; congruence.
  - intros Hs. apply lstrip_nil_iff in Hs. by rewrite Hs.
Qed.

Lemma truthy_strip_false (s : str) :
  truthy (strip s) = false <-> whitespace_only s.
Proof.
  rewrite <- strip_nil_iff. destruct (strip s); simpl; split; congruence.
Qed.

Lemma truthy_strip_true (s : str) :
  truthy (strip s) = true <-> Exists (fun c => isspace c = false) s.
Proof.
  split.
  - intros Ht.
    destruct (decide (Exists (fun c => isspace c = false) s)) as [|Hn];
      [done|].
    apply not_Exists_Forall in Hn; [|intros c; apply _].
    assert (whitespace_only s) as Hw.
    { eapply Forall_impl; [exact Hn|]. intros c Hc. simpl in Hc.
      destruct (isspace c); congruence. }
    apply truthy_strip_false in Hw. congruence.
  - intros He. destruct (truthy (strip s)) eqn:Ht; [done|].
    apply truthy_strip_false in Ht. unfold whitespace_only in Ht.
    rewrite Forall_forall in Ht. apply Exists_exists in He as (c & Hc & Hf).
    rewrite (Ht c Hc) in Hf. discriminate.
Qed.

(** ** Decoding *)

Lemma utf8_decode_ascii (bs : bytes) :
  Forall (fun b => Byte.to_N b < 128) bs ->
  utf8_decode bs = Some (Byte.to_N <$> bs).
Proof.
  induction 1 as [|b bs Hb _ IH]; [reflexivity|].
  cbn [utf8_decode]. apply N.ltb_lt in Hb. rewrite Hb, IH. reflexivity.
Qed.

Lemma to_N_byte_of (n : N) : n < 256 -> Byte.to_N (byte_of n) = n.
Proof.
  intros Hn. unfold byte_of. destruct (Byte.of_N n) as [b|] eqn:Hb.
  - by apply Byte.to_of_N.
  - apply Byte.of_N_None_iff in Hb. lia.
Qed.

Lemma split64 (c : N) :
  exists d m, c = 64 * d + m /\ m < 64 /\ c / 64 = d /\ c mod 64 = m.
Proof.
  exists (c / 64), (c mod 64). split; [apply N.Div0.div_mod|].
  split; [by apply N.mod_lt|done].
Qed.

(** Decide the comparisons of the goal from the arithmetic context. *)
Ltac decide_comparisons :=
  repeat match goal with
  | |- context [?a <? ?b] =>
    destruct (N.ltb_spec a b); try (exfalso; lia)
  | |- context [?a <=? ?b] =>
    destruct (N.leb_spec a b); try (exfalso; lia)
  | |- context [?a =? ?b] =>
    destruct (N.eqb_spec a b); try (exfalso; lia)
  end.

Lemma utf8_decode_encode_char (c : N) (b rest : bytes) :
  utf8_encode_char c = Some b ->
  utf8_decode (b ++ rest) = cons c <$> utf8_decode rest.
Proof.
  unfold utf8_encode_char.
  replace (c / 4096) with (c / 64 / 64) by (by rewrite N.Div0.div_div).
  replace (c / 262144) with (c / 64 / 64 / 64)
    by (by rewrite !N.Div0.div_div).
  destruct (split64 c) as (d1 & m1 & Hc & Hm1 & -> & ->).
  destruct (split64 d1) as (d2 & m2 & Hd1 & Hm2 & -> & ->).
  destruct (split64 d2) as (d3 & m3 & Hd2 & Hm3 & -> & ->).
  destruct (N.ltb_spec c 128); [|destruct (N.ltb_spec c 2048);
    [|destruct (N.ltb_spec c 65536); [|destruct (N.ltb_spec c 1114112)]]].
  - intros [= <-]. cbn [app utf8_decode]. rewrite to_N_byte_of by lia.
    by decide_comparisons.
  - intros [= <-]. cbn [app utf8_decode]. unfold is_continuation.
    rewrite !to_N_byte_of by lia. rewrite !N.shiftl_mul_pow2.
    change (2 ^ 6) with 64.
    decide_comparisons. cbn [andb]. do 2 f_equal. lia.
  - destruct (andb _ _) eqn:Hs; [discriminate|].
    apply andb_false_iff in Hs.
    assert (c < 55296 \/ 57344 <= c) as Hsur.
    { destruct Hs as [Hs|Hs];
        [apply N.leb_gt in Hs|apply N.ltb_ge in Hs]; lia. }
    clear Hs.
    intros [= <-]. cbn [app utf8_decode]. unfold is_continuation.
    rewrite !to_N_byte_of by lia. rewrite !N.shiftl_mul_pow2.
    change (2 ^ 6) with 64. change (2 ^ 12) with 4096.
    decide_comparisons; cbn [andb orb negb]; decide_comparisons;
      try (do 2 f_equal; lia).
  - intros [= <-]. cbn [app utf8_decode]. unfold is_continuation.
    rewrite !to_N_byte_of by lia. rewrite !N.shiftl_mul_pow2.
    change (2 ^ 6) with 64. change (2 ^ 12) with 4096.
    change (2 ^ 18) with 262144.
    decide_comparisons; cbn [andb orb negb]; decide_comparisons;
      try (do 2 f_equal; lia).
  - discriminate.
Qed.

(** Decoding undoes encoding: a printed text arrives as it was. *)
Lemma utf8_decode_encode (s : str) (bs : bytes) :
  utf8_encode s = Some bs -> utf8_decode bs = Some s.
Proof.
  revert bs. induction s as [|c s IH]; intros bs; cbn [utf8_encode].
  - by intros [= <-].
  - destruct (utf8_encode_char c) as [b|] eqn:Hc; [|discriminate].
    destruct (utf8_encode s) as [bs'|]; [|discriminate].
    intros [= <-]. rewrite (utf8_decode_encode_char _ _ _ Hc).
    by rewrite (IH _ eq_refl).
Qed.

(** ** The file system *)

Lemma rmtree_below (d q : Path) (fs : FS) : rmtree d fs !! (d ++ q) = None.
Proof.
  unfold rmtree. apply map_lookup_filter_None. right.
  intros x _ Hn. apply Hn. simpl. by exists q.
Qed.

Lemma rmtree_elsewhere (d p : Path) (fs : FS) :
  ¬ d `prefix_of` p -> rmtree d fs !! p = fs !! p.
Proof.
  intros Hp. unfold rmtree. destruct (fs !! p) as [x|] eqn:Hx.
  - apply map_lookup_filter_Some. by split.
  - apply map_lookup_filter_None. by left.
Qed.

Lemma path_join_ne (d : Path) (a b : str) : a <> b -> d // a <> d // b.
Proof. unfold path_join. intros Hab Heq. by simplify_list_eq. Qed.

Lemma path_join_ne_self (d : Path) (a : str) : d // a <> d.
Proof.
  unfold path_join. intros Heq. apply (f_equal length) in Heq.
  rewrite length_app in Heq. simpl in Heq. lia.
Qed.

(** ** The handler, case by case *)

Section Handler.

Context `{Collaborators}.

(** The invocation takes place exactly when the cell can be written. *)
Lemma outcome_unencodable (cell : str) (w : World) :
  encode_text cell = None ->
  outcome cell w =
  (inl (UnicodeEncodeError cell),
   open_w_fs (mojo_path w) (<[tempdir w := Dir]> (files w))).
Proof. intros He. unfold outcome. by rewrite He. Qed.

Lemma outcome_completed (cell : str) (w : World) result :
  (outcome cell w).1 = inr result -> is_Some (encode_text cell).
Proof.
  unfold outcome. destruct (encode_text cell); [by eexists|discriminate].
Qed.

Lemma outcome_not_started (cell : str) (w : World) what :
  (outcome cell w).1 = inl (OSError what) -> is_Some (encode_text cell).
Proof.
  unfold outcome. destruct (encode_text cell); [by eexists|discriminate].
Qed.

Lemma outcome_raised (cell : str) (w : World) e :
  (outcome cell w).1 = inl e ->
  e = UnicodeEncodeError cell \/ exists what, e = OSError what.
Proof.
  unfold outcome. destruct (encode_text cell).
  - destruct (subprocess_run_mojo _ _ _) as [[what|result] fs'];
      [|discriminate].
    intros [= <-]. right. by eexists.
  - intros [= <-]. by left.
Qed.

Lemma staged_after_open (cell : str) (w : World) :
  touch_fs (init_path w)
    (write_text_fs (mojo_path w) cell
       (open_w_fs (mojo_path w) (<[tempdir w := Dir]> (files w)))) =
  staged cell w.
Proof.
  unfold staged, write_text_fs, open_w_fs. by rewrite insert_insert_eq.
Qed.

Lemma final_log_encodable (cell : str) (w : World) :
  is_Some (encode_text cell) ->
  final_log cell w = spawned w ++ [invocation cell w].
Proof. intros [b Hb]. unfold final_log. by rewrite Hb. Qed.

Lemma mojo_cases (line cell : str) (w : World) :
  mojo line cell w =
  match (outcome cell w).1 with
  | inl e => (Raise e, final cell w (notebook w))
  | inr result =>
    if (returncode result =? 0)%Z then
      match utf8_decode (stdout result) with
      | Some s =>
        (Return tt,
         final cell w (if truthy (strip s) then notebook w ++ s
                       else notebook w))
      | None =>
        (Raise (UnicodeDecodeError (stdout result)),
         final cell w (notebook w))
      end
    else
      match utf8_decode (stdout result), utf8_decode (stderr result) with
      | Some out, Some err =>
        (Raise (MojoCompilationError (mojo_path w) (command w) out err),
         final cell w (notebook w))
      | Some _, None =>
        (Raise (UnicodeDecodeError (stderr result)),
         final cell w (notebook w))
      | None, _ =>
        (Raise (UnicodeDecodeError (stdout result)),
         final cell w (notebook w))
      end
  end.
Proof.
  unfold final, final_log, outcome, mojo, with_TemporaryDirectory, run.
  unfold decode, mbind, M_bind, open_w, write, touch, print.
  unfold mret, M_ret, raise.
  cbn [files notebook spawned set_files].
  fold (tempdir w). fold (mojo_path w). fold (init_path w).
  fold (command w).
  destruct (encode_text cell) as [b|]; [|reflexivity].
  cbn [files notebook spawned set_files].
  rewrite !staged_after_open. fold (invocation cell w).
  destruct (subprocess_run_mojo (command w) true (staged cell w))
    as [[what|result] fs'] eqn:Hrun; cbn [fst snd]; [reflexivity|].
  destruct (returncode result =? 0)%Z.
  - destruct (utf8_decode (stdout result)) as [s|]; [|reflexivity].
    destruct (truthy (strip s)); [|reflexivity].
    cbn. by rewrite app_nil_r.
  - destruct (utf8_decode (stdout result)) as [out|]; [|reflexivity].
    destruct (utf8_decode (stderr result)) as [err|]; reflexivity.
Qed.

(** ** Output on success *)

(** C1 (amended): when the process exits with return code 0 and its
    captured standard output decodes to a text X holding at least one
    character that is not white space, the handler returns and the
    notebook output grows by exactly X: nothing before it, nothing after
    it, no added newline. *)
Theorem C1_stdout_relayed (line cell : str) (w : World) result X :
  (outcome cell w).1 = inr result ->
  returncode result = 0%Z ->
  utf8_decode (stdout result) = Some X ->
  Exists (fun c => isspace c = false) X ->
  (mojo line cell w).1 = Return tt /\
  notebook (mojo line cell w).2 = notebook w ++ X.
Proof.
  intros Hrun Hrc HX Hns. rewrite mojo_cases, Hrun, Hrc, HX. cbn.
  apply truthy_strip_true in Hns. by rewrite Hns.
Qed.

(** C8: when the process exits with return code 0 and its captured
    standard output decodes to a text that is empty or white space only,
    the handler returns and the notebook output is unchanged. *)
Theorem C8_blank_stdout_suppressed (line cell : str) (w : World) result X :
  (outcome cell w).1 = inr result ->
  returncode result = 0%Z ->
  utf8_decode (stdout result) = Some X ->
  whitespace_only X ->
  (mojo line cell w).1 = Return tt /\
  notebook (mojo line cell w).2 = notebook w.
Proof.
  intros Hrun Hrc HX Hws. rewrite mojo_cases, Hrun, Hrc, HX. cbn.
  apply truthy_strip_false in Hws. by rewrite Hws.
Qed.

(** A process that prints the text X, with a character that is not
    white space in it, and exits with 0: the notebook shows X. *)
Lemma mojo_relays_printed_text (line cell : str) (w : World) result X :
  (outcome cell w).1 = inr result ->
  returncode result = 0%Z ->
  utf8_encode X = Some (stdout result) ->
  Exists (fun c => isspace c = false) X ->
  mojo line cell w = (Return tt, final cell w (notebook w ++ X)).
Proof.
  intros Hrun Hrc HX Hns. rewrite mojo_cases, Hrun, Hrc.
  rewrite (utf8_decode_encode _ _ HX).
  apply truthy_strip_true in Hns. by rewrite Hns.
Qed.

(** ** The error path *)

(** C2 (amended): when the process exits with a non-zero return code and
    both captured streams are valid UTF-8, the handler raises
    [MojoCompilationError] carrying the path of the generated source
    file, the command [["run", str(path)]] and the decoded standard output
    and standard error. *)
Theorem C2_error_populated (line cell : str) (w : World) result out err :
  (outcome cell w).1 = inr result ->
  returncode result <> 0%Z ->
  utf8_decode (stdout result) = Some out ->
  utf8_decode (stderr result) = Some err ->
  (mojo line cell w).1 =
  Raise (MojoCompilationError
           (tempdir w // py "cell.mojo")
           [py "run"; str_of_path (tempdir w // py "cell.mojo")]
           out err).
Proof.
  intros Hrun Hrc Hout Herr. rewrite mojo_cases, Hrun.
  apply Z.eqb_neq in Hrc. by rewrite Hrc, Hout, Herr.
Qed.


(** C10: when the process exits with a non-zero return code the handler
    raises and the notebook output is what it was before the call. *)
Theorem C10_nothing_printed_on_error (line cell : str) (w : World) result :
  (outcome cell w).1 = inr result ->
  returncode result <> 0%Z ->
  (exists e, (mojo line cell w).1 = Raise e) /\
  notebook (mojo line cell w).2 = notebook w.
Proof.
  intros Hrun Hrc. rewrite mojo_cases, Hrun.
  apply Z.eqb_neq in Hrc. rewrite Hrc.
  destruct (utf8_decode (stdout result)) as [out|];
    [destruct (utf8_decode (stderr result)) as [err|]|];
    cbn; eauto.
Qed.

(** Output that is not UTF-8 makes the handler raise
    [UnicodeDecodeError], whatever the return code; a collaborator that
    cannot start the process makes it raise [OSError]. *)
Lemma mojo_undecodable_stdout (line cell : str) (w : World) result :
  (outcome cell w).1 = inr result ->
  utf8_decode (stdout result) = None ->
  mojo line cell w =
  (Raise (UnicodeDecodeError (stdout result)), final cell w (notebook w)).
Proof.
  intros Hrun Hout. rewrite mojo_cases, Hrun, Hout.
  by destruct (returncode result =? 0)%Z.
Qed.

Lemma mojo_undecodable_stderr (line cell : str) (w : World) result :
  (outcome cell w).1 = inr result ->
  returncode result <> 0%Z ->
  is_Some (utf8_decode (stdout result)) ->
  utf8_decode (stderr result) = None ->
  mojo line cell w =
  (Raise (UnicodeDecodeError (stderr result)), final cell w (notebook w)).
Proof.
  intros Hrun Hrc [out Hout] Herr. rewrite mojo_cases, Hrun.
  apply Z.eqb_neq in Hrc. by rewrite Hrc, Hout, Herr.
Qed.

Lemma mojo_not_started (line cell : str) (w : World) what :
  (outcome cell w).1 = inl (OSError what) ->
  mojo line cell w = (Raise (OSError what), final cell w (notebook w)).
Proof. intros Hrun. by rewrite mojo_cases, Hrun. Qed.

(** A cell the platform's text encoding rejects: the write raises, the
    collaborator is not called and nothing is printed. *)
Lemma mojo_unencodable_cell (line cell : str) (w : World) :
  encode_text cell = None ->
  mojo line cell w =
  (Raise (UnicodeEncodeError cell),
   {| files := rmtree (tempdir w)
                 (open_w_fs (mojo_path w) (<[tempdir w := Dir]> (files w)));
      notebook := notebook w;
      spawned := spawned w |}).
Proof.
  intros He. rewrite mojo_cases. unfold final, final_log.
  by rewrite (outcome_unencodable _ _ He), He.
Qed.

(** ** The call of the collaborator *)

Lemma mojo_log (line cell : str) (w : World) :
  spawned (mojo line cell w).2 = final_log cell w.
Proof.
  rewrite mojo_cases. destruct ((outcome cell w).1) as [what|result];
    [reflexivity|].
  destruct (returncode result =? 0)%Z.
  - by destruct (utf8_decode (stdout result)).
  - by destruct (utf8_decode (stdout result)),
         (utf8_decode (stderr result)).
Qed.

Lemma mojo_spawned (line cell : str) (w : World) :
  is_Some (encode_text cell) ->
  spawned (mojo line cell w).2 =
  spawned w ++ [{| inv_command := command w; inv_capture_output := true;
                   inv_files := staged cell w |}].
Proof.
  intros He. rewrite mojo_log. by apply final_log_encodable.
Qed.

Lemma staged_new (cell : str) (w : World) :
  new_directory (tempdir w) (files w) ->
  staged cell w =
  <[init_path w := File []]>
    (<[mojo_path w := File cell]> (<[tempdir w := Dir]> (files w))).
Proof.
  intros Hnew. unfold staged, touch_fs, write_text_fs.
  rewrite lookup_insert_ne by (apply path_join_ne; discriminate).
  rewrite lookup_insert_ne by (symmetry; apply path_join_ne_self).
  unfold init_path, path_join. by rewrite Hnew.
Qed.

(** C5 (amended): when the platform's text encoding can encode the cell
    text and the temporary directory is new, the files the external
    process is started on are those from before the call plus the
    directory, the source file [cell.mojo] in it, holding exactly the cell
    text, and the empty file [__init__.mojo] in it. *)
Theorem C5_files_staged (line cell : str) (w : World) :
  is_Some (encode_text cell) ->
  new_directory (tempdir w) (files w) ->
  exists inv,
    spawned (mojo line cell w).2 = spawned w ++ [inv] /\
    inv_files inv =
      <[tempdir w // py "__init__.mojo" := File []]>
        (<[tempdir w // py "cell.mojo" := File cell]>
           (<[tempdir w := Dir]> (files w))) /\
    inv_files inv !! tempdir w = Some Dir /\
    inv_files inv !! (tempdir w // py "cell.mojo") = Some (File cell) /\
    inv_files inv !! (tempdir w // py "__init__.mojo") = Some (File []).
Proof.
  intros He Hnew. eexists. split; [by apply mojo_spawned|].
  cbn [inv_files]. rewrite (staged_new _ _ Hnew).
  unfold init_path, mojo_path. repeat split.
  - rewrite !lookup_insert_ne by apply path_join_ne_self.
    apply lookup_insert_eq.
  - rewrite lookup_insert_ne by (apply path_join_ne; discriminate).
    apply lookup_insert_eq.
  - apply lookup_insert_eq.
Qed.

(** C6 (amended): when the platform's text encoding can encode the cell
    text, a call of the handler adds exactly one call to the log of the
    collaborator: command [["run", str(tempdir / "cell.mojo")]] and
    [capture_output=True]. *)
Theorem C6_one_run_command (line cell : str) (w : World) :
  is_Some (encode_text cell) ->
  exists inv,
    spawned (mojo line cell w).2 = spawned w ++ [inv] /\
    inv_command inv =
      [py "run"; str_of_path (tempdir w // py "cell.mojo")] /\
    inv_capture_output inv = true.
Proof. intros He. eexists. split; [by apply mojo_spawned|]. by split. Qed.

(** ** The temporary directory *)

(** C4: after a call of the handler, whatever it returned or raised, the
    file system holds nothing at or below the temporary directory. *)
Theorem C4_tempdir_removed (line cell : str) (w : World) (q : Path) :
  files (mojo line cell w).2 !! (tempdir w ++ q) = None.
Proof.
  rewrite mojo_cases. destruct ((outcome cell w).1) as [what|result];
    [apply rmtree_below|].
  destruct (returncode result =? 0)%Z.
  - destruct (utf8_decode (stdout result)); apply rmtree_below.
  - destruct (utf8_decode (stdout result)),
      (utf8_decode (stderr result)); apply rmtree_below.
Qed.

(** What is not below the temporary directory is as the collaborator
    left it. *)
Lemma mojo_files_elsewhere (line cell : str) (w : World) (p : Path) :
  ¬ tempdir w `prefix_of` p ->
  files (mojo line cell w).2 !! p = (outcome cell w).2 !! p.
Proof.
  intros Hp. rewrite mojo_cases.
  destruct ((outcome cell w).1) as [what|result];
    [by apply rmtree_elsewhere|].
  destruct (returncode result =? 0)%Z.
  - destruct (utf8_decode (stdout result)); by apply rmtree_elsewhere.
  - destruct (utf8_decode (stdout result)),
      (utf8_decode (stderr result)); by apply rmtree_elsewhere.
Qed.

(** ** The arguments of the magic *)

(** C9: the handler does not read its [line] argument: two calls that
    differ in it only, in the same world and with the same collaborator,
    give the same result and the same world. *)
Theorem C9_line_ignored (line1 line2 cell : str) (w : World) :
  mojo line1 cell w = mojo line2 cell w.
Proof. by rewrite !mojo_cases. Qed.

(** C7: without the notebook package, [register_cell_magic] gives back
    the function it is applied to, [display] is [None], and the module's
    [mojo] is the handler itself. *)
Theorem C7_fallback_identity :
  (forall (A : Type) (fn : A), register_cell_magic None fn = fn) /\
  display (H := str -> str -> M unit) None = None /\
  mojo_magic None = mojo.
Proof. repeat split. Qed.

End Handler.

(** ** Runs on the test bench *)

Example decode_hello :
  utf8_decode (pyb "Hello from Mojo!") = Some (py "Hello from Mojo!").
Proof. reflexivity. Qed.

Example decode_euro : utf8_decode [xe2; x82; xac] = Some [8364].
Proof. reflexivity. Qed.

Example decode_overlong : utf8_decode [xc0; x80] = None.
Proof. reflexivity. Qed.

Example decode_surrogate : utf8_decode [xed; xa0; x80] = None.
Proof. reflexivity. Qed.

Example decode_truncated : utf8_decode [xe2; x82] = None.
Proof. reflexivity. Qed.

Example encode_euro : utf8_encode [8364] = Some [xe2; x82; xac].
Proof. reflexivity. Qed.

Example encode_surrogate : utf8_encode [55296] = None.
Proof. reflexivity. Qed.

Example strip_padded : strip (py "  a b  ") = py "a b".
Proof. reflexivity. Qed.

Example bench_is_new : new_directory bench_tmp (files w0).
Proof. intros q. apply lookup_empty. Qed.

Example missing_run_raises :
  (@mojo missing_run [] hello_cell w0).1 =
    Raise (OSError (py "mojo: not found")) /\
  files (@mojo missing_run [] hello_cell w0).2 = ∅.
Proof. by vm_compute. Qed.

(** C1, as stated, fails: a lone newline on standard output is decoded
    to the text of one newline, the handler returns, and the notebook
    output stays empty instead of holding that text. *)
Lemma C1_whitespace_not_relayed :
  (@outcome newline_run hello_cell w0).1 = completed 0 [x0a] [] /\
  utf8_decode [x0a] = Some [10] /\
  (@mojo newline_run [] hello_cell w0).1 = Return tt /\
  notebook (@mojo newline_run [] hello_cell w0).2 = [] /\
  notebook (@mojo newline_run [] hello_cell w0).2 <> notebook w0 ++ [10].
Proof. by vm_compute. Qed.

(** The greeting of the docstring's first example arrives in the
    notebook. *)
Lemma C1_stdout_relayed_witness :
  (@mojo hello_run [] hello_cell w0).1 = Return tt /\
  notebook (@mojo hello_run [] hello_cell w0).2 =
    notebook w0 ++ py "Hello from Mojo!" ++ [10].
Proof.
  apply (@C1_stdout_relayed hello_run [] hello_cell w0
           {| returncode := 0; stdout := pyb "Hello from Mojo!" ++ [x0a];
              stderr := [] |}).
  - reflexivity.
  - reflexivity.
  - reflexivity.
  - apply Exists_cons_hd. reflexivity.
Defined.

(** Two blanks and a newline are not shown. *)
Lemma C8_blank_stdout_suppressed_witness :
  utf8_decode (pyb "  " ++ [x0a]) = Some [32; 32; 10] /\
  (@mojo blank_run [] hello_cell w0).1 = Return tt /\
  notebook (@mojo blank_run [] hello_cell w0).2 = notebook w0.
Proof.
  split; [reflexivity|].
  apply (@C8_blank_stdout_suppressed blank_run [] hello_cell w0
           {| returncode := 0; stdout := pyb "  " ++ [x0a]; stderr := [] |}
           [32; 32; 10]).
  - reflexivity.
  - reflexivity.
  - reflexivity.
  - repeat constructor.
Defined.

(** C2, as stated, fails: with return code 1 and the byte FF on standard
    error the handler raises [UnicodeDecodeError], not
    [MojoCompilationError]. *)
Lemma C2_undecodable_stderr :
  (@outcome garbled_stderr_run hello_cell w0).1 = completed 1 [] [xff] /\
  returncode {| returncode := 1; stdout := []; stderr := [xff] |} <> 0%Z /\
  (@mojo garbled_stderr_run [] hello_cell w0).1 =
    Raise (UnicodeDecodeError [xff]) /\
  ~ raises_compilation_error (@mojo garbled_stderr_run [] hello_cell w0).1.
Proof.
  vm_compute. repeat split; [discriminate|].
  intros (p & c & o & e & Hr). discriminate.
Qed.

(** A failed compilation with readable diagnostics. *)
Lemma C2_error_populated_witness :
  (@mojo failed_run [] hello_cell w0).1 =
  Raise (MojoCompilationError
           (bench_tmp // py "cell.mojo")
           [py "run"; py "/tmp/tmpq7x2m9ab/cell.mojo"]
           (py "checking") (py "error: use of unknown declaration")).
Proof.
  apply (@C2_error_populated failed_run [] hello_cell w0
           {| returncode := 1; stdout := pyb "checking";
              stderr := pyb "error: use of unknown declaration" |}).
  - reflexivity.
  - discriminate.
  - reflexivity.
  - reflexivity.
Defined.



(** The failed run leaves the notebook empty. *)
Lemma C10_nothing_printed_on_error_witness :
  (exists e, (@mojo failed_run [] hello_cell w0).1 = Raise e) /\
  notebook (@mojo failed_run [] hello_cell w0).2 = notebook w0.
Proof.
  apply (@C10_nothing_printed_on_error failed_run [] hello_cell w0
           {| returncode := 1; stdout := pyb "checking";
              stderr := pyb "error: use of unknown declaration" |}).
  - reflexivity.
  - discriminate.
Defined.

(** C5, as stated, fails: a cell that is a lone surrogate cannot be
    written as UTF-8, so the handler raises [UnicodeEncodeError] at the
    write, with the source file empty and no [__init__.mojo], and the
    external process is never invoked. *)
Lemma C5_unencodable_cell_not_staged :
  (@mojo hello_run [] surrogate_cell w0).1 =
    Raise (UnicodeEncodeError surrogate_cell) /\
  spawned (@mojo hello_run [] surrogate_cell w0).2 = [] /\
  (@outcome hello_run surrogate_cell w0).2 !! (bench_tmp // py "cell.mojo")
    = Some (File []) /\
  File [] <> File surrogate_cell /\
  (@outcome hello_run surrogate_cell w0).2
    !! (bench_tmp // py "__init__.mojo") = None.
Proof. by vm_compute. Qed.

(** The greeting cell is UTF-8 text; on the empty file system the
    bench's directory is new, and the process finds the three nodes. *)
Lemma C5_files_staged_witness :
  exists inv,
    spawned (@mojo hello_run [] hello_cell w0).2 = [inv] /\
    inv_files inv !! bench_tmp = Some Dir /\
    inv_files inv !! (bench_tmp // py "cell.mojo") = Some (File hello_cell) /\
    inv_files inv !! (bench_tmp // py "__init__.mojo") = Some (File []).
Proof.
  destruct (@C5_files_staged hello_run [] hello_cell w0)
    as (inv & Hlog & _ & Hdir & Hcell & Hinit).
  - eexists. reflexivity.
  - intros q. apply lookup_empty.
  - exists inv. repeat split; assumption.
Defined.

(** C6, as stated, fails: for a cell that is a lone surrogate the handler
    raises at the write and the collaborator is called zero times, not
    once. *)
Lemma C6_unencodable_cell_no_run :
  utf8_encode surrogate_cell = None /\
  (@mojo hello_run [] surrogate_cell w_notes).1 =
    Raise (UnicodeEncodeError surrogate_cell) /\
  spawned (@mojo hello_run [] surrogate_cell w_notes).2 = spawned w_notes /\
  length (spawned (@mojo hello_run [] surrogate_cell w_notes).2) = 0%nat.
Proof. by vm_compute. Qed.

(** The greeting cell is run once, on its generated file. *)
Lemma C6_one_run_command_witness :
  exists inv,
    spawned (@mojo hello_run [] hello_cell w0).2 = [inv] /\
    inv_command inv = [py "run"; py "/tmp/tmpq7x2m9ab/cell.mojo"] /\
    inv_capture_output inv = true.
Proof.
  apply (@C6_one_run_command hello_run [] hello_cell w0).
  eexists. reflexivity.
Defined.

(** * Further properties of the handler *)

Section Further.

Context `{Collaborators}.

(** The files left by a call: those the collaborator left, without the
    temporary directory. *)
Lemma mojo_files (line cell : str) (w : World) :
  files (mojo line cell w).2 = rmtree (tempdir w) (outcome cell w).2.
Proof.
  rewrite mojo_cases. destruct ((outcome cell w).1) as [what|result];
    [reflexivity|].
  destruct (returncode result =? 0)%Z.
  - by destruct (utf8_decode (stdout result)).
  - by destruct (utf8_decode (stdout result)),
         (utf8_decode (stderr result)).
Qed.

Lemma below_tempdir_ne (w : World) (name : str) (p : Path) :
  ¬ tempdir w `prefix_of` p -> tempdir w // name <> p.
Proof.
  intros Hp <-. apply Hp. unfold path_join. by eexists.
Qed.

Lemma staged_elsewhere (cell : str) (w : World) (p : Path) :
  ¬ tempdir w `prefix_of` p -> staged cell w !! p = files w !! p.
Proof.
  intros Hp. unfold staged, touch_fs, write_text_fs, init_path, mojo_path.
  assert (tempdir w <> p) as Hd by (intros <-; by apply Hp).
  destruct (_ !! (tempdir w // py "__init__.mojo"));
    rewrite ?(lookup_insert_ne _ (tempdir w // py "__init__.mojo"))
      by (by apply below_tempdir_ne);
    rewrite lookup_insert_ne by (by apply below_tempdir_ne);
    by rewrite lookup_insert_ne.
Qed.

Lemma staged_source (cell : str) (w : World) :
  staged cell w !! mojo_path w = Some (File cell).
Proof.
  unfold staged, touch_fs, write_text_fs, init_path, mojo_path.
  destruct (_ !! (tempdir w // py "__init__.mojo")).
  - apply lookup_insert_eq.
  - rewrite lookup_insert_ne by (apply path_join_ne; discriminate).
    apply lookup_insert_eq.
Qed.

(** X1: a call only ever appends to the notebook output, and it appends
    at most once: either the output is what it was, or the process
    exited with 0, its standard output decoded to a text X with a
    character that is not white space, the handler returned, and the
    output is the old output followed by X. *)
Theorem mojo_appends_only (line cell : str) (w : World) :
  notebook (mojo line cell w).2 = notebook w \/
  exists result X,
    (outcome cell w).1 = inr result /\
    returncode result = 0%Z /\
    utf8_decode (stdout result) = Some X /\
    Exists (fun c => isspace c = false) X /\
    (mojo line cell w).1 = Return tt /\
    notebook (mojo line cell w).2 = notebook w ++ X.
Proof.
  rewrite mojo_cases.
  destruct ((outcome cell w).1) as [what|result] eqn:Hrun; [by left|].
  destruct (returncode result =? 0)%Z eqn:Hrc.
  - destruct (utf8_decode (stdout result)) as [X|] eqn:HX; [|by left].
    destruct (truthy (strip X)) eqn:Ht; [|by left].
    right. exists result, X. apply Z.eqb_eq in Hrc.
    apply truthy_strip_true in Ht. by rewrite HX.
  - left. by destruct (utf8_decode (stdout result)),
                      (utf8_decode (stderr result)).
Qed.

(** X2: the handler returns only after a process that was started, exited
    with return code 0 and wrote valid UTF-8 to its standard output. *)
Theorem mojo_returns_only_on_success (line cell : str) (w : World) :
  (mojo line cell w).1 = Return tt ->
  exists result,
    (outcome cell w).1 = inr result /\
    returncode result = 0%Z /\
    is_Some (utf8_decode (stdout result)).
Proof.
  rewrite mojo_cases.
  destruct ((outcome cell w).1) as [what|result] eqn:Hrun; [discriminate|].
  destruct (returncode result =? 0)%Z eqn:Hrc.
  - destruct (utf8_decode (stdout result)) as [X|] eqn:HX; [|discriminate].
    intros _. exists result. apply Z.eqb_eq in Hrc. by rewrite HX.
  - by destruct (utf8_decode (stdout result)),
         (utf8_decode (stderr result)).
Qed.

(** X3: when the collaborator raises instead of returning a completed
    process, the handler lets that exception through as it is, prints
    nothing, has called the collaborator once and leaves nothing at or
    below the temporary directory. *)
Theorem mojo_collaborator_exception_propagates
    (line cell : str) (w : World) what :
  (outcome cell w).1 = inl (OSError what) ->
  (mojo line cell w).1 = Raise (OSError what) /\
  notebook (mojo line cell w).2 = notebook w /\
  length (spawned (mojo line cell w).2) = S (length (spawned w)) /\
  forall q, files (mojo line cell w).2 !! (tempdir w ++ q) = None.
Proof.
  intros Hrun. rewrite (mojo_not_started _ _ _ _ Hrun). cbn.
  rewrite (final_log_encodable _ _ (outcome_not_started _ _ _ Hrun)).
  repeat split.
  - rewrite length_app. cbn. lia.
  - intros q. apply rmtree_below.
Qed.

(** X4: when the captured standard output is not valid UTF-8 the handler
    raises [UnicodeDecodeError] on those bytes, for a zero and for a
    non-zero return code alike, and prints nothing. *)
Theorem mojo_undecodable_stdout_raises
    (line cell : str) (w : World) result :
  (outcome cell w).1 = inr result ->
  utf8_decode (stdout result) = None ->
  (mojo line cell w).1 = Raise (UnicodeDecodeError (stdout result)) /\
  notebook (mojo line cell w).2 = notebook w.
Proof.
  intros Hrun Hout. by rewrite (mojo_undecodable_stdout _ _ _ _ Hrun Hout).
Qed.

(** X5: after a non-zero return code with readable standard output, a
    standard error that is not valid UTF-8 makes the handler raise
    [UnicodeDecodeError] on the bytes of standard error, and it prints
    nothing. *)
Theorem mojo_undecodable_stderr_raises
    (line cell : str) (w : World) result :
  (outcome cell w).1 = inr result ->
  returncode result <> 0%Z ->
  is_Some (utf8_decode (stdout result)) ->
  utf8_decode (stderr result) = None ->
  (mojo line cell w).1 = Raise (UnicodeDecodeError (stderr result)) /\
  notebook (mojo line cell w).2 = notebook w.
Proof.
  intros Hrun Hrc Hout Herr.
  by rewrite (mojo_undecodable_stderr _ _ _ _ Hrun Hrc Hout Herr).
Qed.

(** X7: the handler leaves every path that is not at or below its
    temporary directory alone: the process finds there what was there
    before the call, and after the call there is what the process left. *)
Theorem mojo_leaves_other_files_alone
    (line cell : str) (w : World) (p : Path) :
  ¬ tempdir w `prefix_of` p ->
  staged cell w !! p = files w !! p /\
  files (mojo line cell w).2 !! p = (outcome cell w).2 !! p.
Proof.
  intros Hp. split; [by apply staged_elsewhere|].
  rewrite mojo_files. by apply rmtree_elsewhere.
Qed.

(** X8: when the temporary directory is new and the process changes
    nothing outside it, the file system after the call is the file system
    from before the call, whatever the process wrote into the directory
    and however the call ended. *)
Theorem mojo_restores_files (line cell : str) (w : World) :
  new_directory (tempdir w) (files w) ->
  (forall p, ¬ tempdir w `prefix_of` p ->
             (outcome cell w).2 !! p = staged cell w !! p) ->
  files (mojo line cell w).2 = files w.
Proof.
  intros Hnew Hout. rewrite mojo_files. apply map_eq. intros p.
  destruct (decide (tempdir w `prefix_of` p)) as [[q ->]|Hp].
  - by rewrite rmtree_below, Hnew.
  - rewrite rmtree_elsewhere by done. rewrite Hout by done.
    by apply staged_elsewhere.
Qed.

(** X9: a raised [MojoCompilationError] names what was run: its command
    is the command of the one call of the collaborator, that command is
    [["run", str(path)]] for the path in the error, and at that path the
    process found a file holding exactly the cell text. *)
Theorem mojo_error_names_what_ran
    (line cell : str) (w : World) path cmd out err :
  (mojo line cell w).1 = Raise (MojoCompilationError path cmd out err) ->
  exists inv,
    spawned (mojo line cell w).2 = spawned w ++ [inv] /\
    inv_command inv = cmd /\
    cmd = [py "run"; str_of_path path] /\
    inv_files inv !! path = Some (File cell).
Proof.
  intros Hr. rewrite mojo_cases in Hr.
  destruct ((outcome cell w).1) as [e|result] eqn:Hrun.
  { apply outcome_raised in Hrun as [->|[what ->]]; discriminate. }
  eexists. split; [apply mojo_spawned; by eapply outcome_completed|]. cbn.
  destruct (returncode result =? 0)%Z.
  - by destruct (utf8_decode (stdout result)).
  - destruct (utf8_decode (stdout result)) as [o|]; [|discriminate].
    destruct (utf8_decode (stderr result)) as [e|]; [|discriminate].
    injection Hr as <- <- <- <-. repeat split. apply staged_source.
Qed.

(** X10: a process that prints the text X, as UTF-8 and with a character
    that is not white space in it, and exits with 0, makes the handler
    return with the notebook output grown by exactly X. *)
Theorem mojo_shows_printed_text
    (line cell : str) (w : World) result X :
  (outcome cell w).1 = inr result ->
  returncode result = 0%Z ->
  utf8_encode X = Some (stdout result) ->
  Exists (fun c => isspace c = false) X ->
  (mojo line cell w).1 = Return tt /\
  notebook (mojo line cell w).2 = notebook w ++ X.
Proof.
  intros Hrun Hrc HX Hns.
  by rewrite (mojo_relays_printed_text _ _ _ _ _ Hrun Hrc HX Hns).
Qed.

(** X11: a cell the platform's text encoding rejects makes the handler
    raise [UnicodeEncodeError] on the cell text at the write; the
    collaborator is not called, nothing is printed, and nothing is left
    at or below the temporary directory. *)
Theorem mojo_unencodable_cell_raises (line cell : str) (w : World) :
  encode_text cell = None ->
  (mojo line cell w).1 = Raise (UnicodeEncodeError cell) /\
  spawned (mojo line cell w).2 = spawned w /\
  notebook (mojo line cell w).2 = notebook w /\
  forall q, files (mojo line cell w).2 !! (tempdir w ++ q) = None.
Proof.
  intros He. rewrite (mojo_unencodable_cell _ _ _ He). cbn.
  repeat split. intros q. apply rmtree_below.
Qed.

End Further.

(** X6: the standard error of a process that exited with 0 is not read:
    two collaborators whose processes exit with 0 and the same standard
    output make the handler give the same result and the same notebook
    output, whatever is on standard error. *)
Theorem mojo_success_ignores_stderr
    (A B : Collaborators) (line cell : str) (w : World) ra rb :
  (@outcome A cell w).1 = inr ra ->
  (@outcome B cell w).1 = inr rb ->
  returncode ra = 0%Z ->
  returncode rb = 0%Z ->
  stdout ra = stdout rb ->
  (@mojo A line cell w).1 = (@mojo B line cell w).1 /\
  notebook (@mojo A line cell w).2 = notebook (@mojo B line cell w).2.
Proof.
  intros Ha Hb Hrca Hrcb Hout.
  rewrite (@mojo_cases A), (@mojo_cases B), Ha, Hb, Hrca, Hrcb, Hout. cbn.
  by destruct (utf8_decode (stdout rb)).
Qed.

(** ** Runs on the test bench, continued *)

Example notes_dir_is_new : new_directory bench_tmp (files w_notes).
Proof.
  intros q. apply lookup_singleton_ne. intros Heq.
  vm_compute in Heq. discriminate.
Qed.

(** The greeting run returns, so its process exited with 0. *)
Lemma mojo_returns_only_on_success_witness :
  exists result,
    (@outcome hello_run hello_cell w0).1 = inr result /\
    returncode result = 0%Z /\
    is_Some (utf8_decode (stdout result)).
Proof.
  apply (@mojo_returns_only_on_success hello_run [] hello_cell w0).
  reflexivity.
Defined.

(** The executable is missing: the prompt stays as it was and the user's
    world holds no trace of the directory. *)
Lemma mojo_collaborator_exception_propagates_witness :
  (@mojo missing_run [] hello_cell w_notes).1 =
    Raise (OSError (py "mojo: not found")) /\
  notebook (@mojo missing_run [] hello_cell w_notes).2 = py "In [1]: " /\
  length (spawned (@mojo missing_run [] hello_cell w_notes).2) = 1%nat /\
  forall q,
    files (@mojo missing_run [] hello_cell w_notes).2 !! (bench_tmp ++ q)
    = None.
Proof.
  apply (@mojo_collaborator_exception_propagates
           missing_run [] hello_cell w_notes (py "mojo: not found")).
  reflexivity.
Defined.

(** The byte FF with return code 0, and an over-long form with return
    code 1 and an unreadable standard error as well: both times the
    error is about standard output. *)
Lemma mojo_undecodable_stdout_raises_witness :
  ((@mojo garbled_stdout_run [] hello_cell w0).1 =
     Raise (UnicodeDecodeError [xff]) /\
   notebook (@mojo garbled_stdout_run [] hello_cell w0).2 = notebook w0) /\
  ((@mojo garbled_failed_run [] hello_cell w0).1 =
     Raise (UnicodeDecodeError [xc0; x80]) /\
   notebook (@mojo garbled_failed_run [] hello_cell w0).2 = notebook w0).
Proof.
  split.
  - apply (@mojo_undecodable_stdout_raises garbled_stdout_run [] hello_cell
             w0 {| returncode := 0; stdout := [xff]; stderr := [] |});
      reflexivity.
  - apply (@mojo_undecodable_stdout_raises garbled_failed_run [] hello_cell
             w0 {| returncode := 1; stdout := [xc0; x80];
                   stderr := [xff] |});
      reflexivity.
Defined.

Lemma mojo_undecodable_stderr_raises_witness :
  (@mojo garbled_stderr_run [] hello_cell w0).1 =
    Raise (UnicodeDecodeError [xff]) /\
  notebook (@mojo garbled_stderr_run [] hello_cell w0).2 = notebook w0.
Proof.
  apply (@mojo_undecodable_stderr_raises garbled_stderr_run [] hello_cell
           w0 {| returncode := 1; stdout := []; stderr := [xff] |}).
  - reflexivity.
  - discriminate.
  - eexists. reflexivity.
  - reflexivity.
Defined.

(** The greeting with and without noise on standard error. *)
Lemma mojo_success_ignores_stderr_witness :
  (@mojo hello_run [] hello_cell w_notes).1 =
    (@mojo noisy_hello_run [] hello_cell w_notes).1 /\
  notebook (@mojo hello_run [] hello_cell w_notes).2 =
    notebook (@mojo noisy_hello_run [] hello_cell w_notes).2.
Proof.
  apply (@mojo_success_ignores_stderr hello_run noisy_hello_run
           [] hello_cell w_notes
           {| returncode := 0; stdout := pyb "Hello from Mojo!" ++ [x0a];
              stderr := [] |}
           {| returncode := 0; stdout := pyb "Hello from Mojo!" ++ [x0a];
              stderr := [xff; xfe] |});
    reflexivity.
Defined.

(** The user's notes are there for the process and after the call. *)
Lemma mojo_leaves_other_files_alone_witness :
  @staged hello_run hello_cell w_notes !! notes_path =
    Some (File (py "remember the milk")) /\
  files (@mojo hello_run [] hello_cell w_notes).2 !! notes_path =
    Some (File (py "remember the milk")).
Proof.
  destruct (@mojo_leaves_other_files_alone hello_run [] hello_cell w_notes
              notes_path) as [Hstaged Hfinal].
  - intros [k Hk]. vm_compute in Hk. discriminate.
  - split.
    + rewrite Hstaged. apply lookup_singleton_eq.
    + rewrite Hfinal.
      change ((@outcome hello_run hello_cell w_notes).2)
        with (@staged hello_run hello_cell w_notes).
      rewrite Hstaged. apply lookup_singleton_eq.
Defined.

(** The object file the process wrote is gone with the directory, and
    the user's files are what they were. *)
Lemma mojo_restores_files_witness :
  files (@mojo artifact_run [] hello_cell w_notes).2 = files w_notes.
Proof.
  apply (@mojo_restores_files artifact_run [] hello_cell w_notes).
  - exact notes_dir_is_new.
  - intros p Hp. apply lookup_insert_ne.
    apply (@below_tempdir_ne artifact_run w_notes (py "cell.o") p Hp).
Defined.

(** The failed compilation names the file it compiled. *)
Lemma mojo_error_names_what_ran_witness :
  exists inv,
    spawned (@mojo failed_run [] hello_cell w0).2 = [inv] /\
    inv_command inv = [py "run"; py "/tmp/tmpq7x2m9ab/cell.mojo"] /\
    inv_files inv !! (bench_tmp // py "cell.mojo") = Some (File hello_cell).
Proof.
  destruct (@mojo_error_names_what_ran failed_run [] hello_cell w0
              (bench_tmp // py "cell.mojo")
              [py "run"; py "/tmp/tmpq7x2m9ab/cell.mojo"]
              (py "checking") (py "error: use of unknown declaration"))
    as (inv & Hlog & Hcmd & _ & Hfile).
  - reflexivity.
  - exists inv. repeat split; assumption.
Defined.

(** Text outside ASCII arrives as it was printed. *)
Lemma mojo_shows_printed_text_witness :
  (@mojo pi_run [] hello_cell w_notes).1 = Return tt /\
  notebook (@mojo pi_run [] hello_cell w_notes).2 =
    py "In [1]: " ++ pi_text.
Proof.
  apply (@mojo_shows_printed_text pi_run [] hello_cell w_notes
           {| returncode := 0;
              stdout := [xcf; x80; x20; xe2; x89; x88; x20; x33];
              stderr := [] |}).
  - reflexivity.
  - reflexivity.
  - reflexivity.
  - apply Exists_cons_hd. reflexivity.
Defined.

(** A lone surrogate as the cell: no process, no output, no files. *)
Lemma mojo_unencodable_cell_raises_witness :
  (@mojo hello_run [] surrogate_cell w_notes).1 =
    Raise (UnicodeEncodeError surrogate_cell) /\
  spawned (@mojo hello_run [] surrogate_cell w_notes).2 = [] /\
  notebook (@mojo hello_run [] surrogate_cell w_notes).2 = py "In [1]: " /\
  forall q,
    files (@mojo hello_run [] surrogate_cell w_notes).2 !! (bench_tmp ++ q)
    = None.
Proof.
  apply (@mojo_unencodable_cell_raises hello_run [] surrogate_cell w_notes).
  reflexivity.
Defined.
